(** * simplechat: the Bedrock chat API of [lambda/index.py]

    A shallow embedding of the request handlers of [lambda/index.py]
    ([startup_event], [health], [chat]) and the properties of their
    request/response transformation, error mapping and client life cycle,
    followed by the helper [extract_region_from_arn] and the entry point
    [run_with_ngrok]. *)

From Stdlib Require Import List String Ascii ZArith Bool Lia Floats.
Import ListNotations.

Set Warnings "-register-all,-inexact-float".

Local Open Scope string_scope.
Local Open Scope list_scope.

(** ** Python values

    The handlers only ever see JSON-shaped data: what pydantic decoded from
    the request body and what [json.loads] decoded from the provider's body.
    A [dict] is an association list in insertion order, as a Python dict
    is; its keys are pairwise distinct. *)

Inductive value : Type :=
| VNone
| VBool (b : bool)
| VInt (n : Z)
| VFloat (x : float)
| VStr (s : string)
| VList (xs : list value)
| VDict (kvs : list (string * value)).

Definition dict : Type := list (string * value).

(** [type(v).__name__] *)
Definition type_name (v : value) : string :=
  match v with
  | VNone => "NoneType"
  | VBool _ => "bool"
  | VInt _ => "int"
  | VFloat _ => "float"
  | VStr _ => "str"
  | VList _ => "list"
  | VDict _ => "dict"
  end.

(** [bool(v)]: the truth value Python's [not] and [if] test. *)
Definition truthy (v : value) : bool :=
  match v with
  | VNone => false
  | VBool b => b
  | VInt n => negb (n =? 0)%Z
  | VFloat x => negb (PrimFloat.eqb x 0%float)
  | VStr s => negb (s =? "")
  | VList xs => match xs with [] => false | _ :: _ => true end
  | VDict kvs => match kvs with [] => false | _ :: _ => true end
  end.

(** [isinstance(v, list)] *)
Definition isinstance_list (v : value) : bool :=
  match v with
  | VList _ => true
  | _ => false
  end.

(** Key lookup in a dict. *)
Fixpoint lookup (key : string) (d : dict) : option value :=
  match d with
  | [] => None
  | (k, v) :: rest => if k =? key then Some v else lookup key rest
  end.

(** ** Exceptions *)

(** Exceptions raised by the libraries the handler calls into.  The
    [except ClientError] clause of [chat] matches [ClientError] and the
    per-service subclasses botocore derives from it; the [BotoCoreError]
    family (EndpointConnectionError, ConnectTimeoutError, ReadTimeoutError,
    ...) are botocore's transport-level errors and do not inherit from
    [ClientError].  [msg] is [str(e)]. *)
Inductive lib_exn : Type :=
| ClientError (msg : string)
| BotoCoreError (cls msg : string)
| JSONDecodeError (msg : string)
| OtherError (cls msg : string).

Definition isinstance_ClientError (e : lib_exn) : bool :=
  match e with
  | ClientError _ => true
  | _ => false
  end.

(** [str(e)] *)
Definition str_exn (e : lib_exn) : string :=
  match e with
  | ClientError msg => msg
  | BotoCoreError _ msg => msg
  | JSONDecodeError msg => msg
  | OtherError _ msg => msg
  end.

(** Everything [chat] can end with: fastapi's [HTTPException], raised by
    the handler itself, the built-in errors of its own dict and attribute
    accesses, and whatever a library call raised. *)
Inductive exn : Type :=
| HTTPException (status_code : Z) (detail : string)
| KeyError (key : string)
| AttributeError (msg : string)
| TypeError (msg : string)
| LibraryError (e : lib_exn).

(** ** The exception monad *)

Inductive result (A : Type) : Type :=
| Return (a : A)
| Raise (e : exn).

Arguments Return {A} a.
Arguments Raise {A} e.

Definition bind {A B : Type} (m : result A) (k : A -> result B) : result B :=
  match m with
  | Return a => k a
  | Raise e => Raise e
  end.

Declare Scope py_scope.
Delimit Scope py_scope with py.
Notation "x <- m ;; k" := (bind m (fun x => k))
  (at level 100, m at next level, right associativity) : py_scope.
Local Open Scope py_scope.

(** [d[key]] on a dict *)
Definition getitem (d : dict) (key : string) : result value :=
  match lookup key d with
  | Some v => Return v
  | None => Raise (KeyError key)
  end.

(** [v.get(key, default)]: only a dict has the method. *)
Definition get (v : value) (key : string) (default : value) : result value :=
  match v with
  | VDict kvs =>
      Return (match lookup key kvs with
              | Some x => x
              | None => default
              end)
  | _ => Raise (AttributeError
                  ("'" ++ type_name v ++ "' object has no attribute 'get'")%string)
  end.

(** [v[key]] with a string key. *)
Definition subscript (v : value) (key : string) : result value :=
  match v with
  | VDict kvs => getitem kvs key
  | VList _ => Raise (TypeError "list indices must be integers or slices, not str")
  | VStr _ => Raise (TypeError "string indices must be integers, not 'str'")
  | _ => Raise (TypeError ("'" ++ type_name v ++ "' object is not subscriptable")%string)
  end.


(** ** Process state *)

(** The handle [boto3.client(service_name, region_name=...)] returns. *)
Record client : Type := {
  service_name : string;
  region_name : string
}.

(** The module's globals together with the part of the world they are
    initialised from.  [boto3_clients] is a ghost log of every client
    [boto3.client] has constructed so far, latest first. *)
Record process : Type := {
  environ : list (string * string);
  MODEL_ID : string;
  bedrock_client : option client;
  boto3_clients : list client
}.

(** [os.environ.get(key, default)] *)
Fixpoint environ_get (env : list (string * string)) (key default : string)
  : string :=
  match env with
  | [] => default
  | (k, v) :: rest => if k =? key then v else environ_get rest key default
  end.

(** Module import: [bedrock_client = None] and [MODEL_ID] is read once. *)
Definition import_module (env : list (string * string)) : process :=
  {| environ := env;
     MODEL_ID := environ_get env "MODEL_ID" "us.amazon.nova-lite-v1:0";
     bedrock_client := None;
     boto3_clients := [] |}.

(** What [boto3.client] raises when it refuses to build a client.  The
    constructor makes no call to the service, so none of these is a
    [ClientError]: they are botocore's own errors (InvalidRegionError on a
    region name it does not accept, UnknownServiceError, ...) or built-in
    ones (ValueError on an empty region). *)
Inductive construction_error : Type :=
| BotoCore (cls msg : string)
| Builtin (cls msg : string).

Definition raised_by_boto3 (e : construction_error) : lib_exn :=
  match e with
  | BotoCore cls msg => BotoCoreError cls msg
  | Builtin cls msg => OtherError cls msg
  end.

(** Two behaviours of [boto3.client], used in the examples: one that
    builds a client for every region, and one that refuses the empty
    region and a region name with a space in it. *)
Definition accepts : string -> string -> option construction_error :=
  fun _ _ => None.

Definition validates : string -> string -> option construction_error :=
  fun _ region =>
    if region =? "" then
      Some (Builtin "ValueError"
              "Invalid endpoint: https://bedrock-runtime..amazonaws.com")
    else if region =? "bad region!" then
      Some (BotoCore "InvalidRegionError"
              "Provided region_name 'bad region!' doesn't match a supported format.")
    else None.

(** Values that [json.dumps(..., allow_nan=False)] can write: no float in
    them is a NaN or an infinity. *)
Fixpoint renderable (v : value) : bool :=
  match v with
  | VFloat x => PrimFloat.is_finite x
  | VList xs => forallb renderable xs
  | VDict kvs => forallb (fun kv => renderable (snd kv)) kvs
  | _ => true
  end.

Section Process.

(** [boto3.client(service_name, region_name=region)] as a function of its
    arguments: the error it raises, or [None] when it returns a handle for
    that service and region. *)
Variable boto3_client_raises : string -> string -> option construction_error.

(** [bedrock_client = boto3.client("bedrock-runtime", region_name=region)]
    with [region = os.environ.get("AWS_REGION", "us-east-1")].  When the
    constructor raises, the assignment does not happen and the exception
    leaves the enclosing function. *)
Definition create_client (p : process) : result unit * process :=
  let region := environ_get (environ p) "AWS_REGION" "us-east-1" in
  match boto3_client_raises "bedrock-runtime" region with
  | Some e => (Raise (LibraryError (raised_by_boto3 e)), p)
  | None =>
      let c :=
        {| service_name := "bedrock-runtime"; region_name := region |} in
      (Return tt,
       {| environ := environ p;
          MODEL_ID := MODEL_ID p;
          bedrock_client := Some c;
          boto3_clients := c :: boto3_clients p |})
  end.

(** [startup_event]: the guarded creation of the client (the [print] is
    not modelled). *)
Definition startup_event (p : process) : result unit * process :=
  match bedrock_client p with
  | None => create_client p
  | Some _ => (Return tt, p)
  end.

(** [health]: a client object is truthy, so the conditional expression
    tests whether the global is still [None]. *)
Definition health (p : process) : result value :=
  Return (VDict [("status", VStr "ok");
                 ("model", match bedrock_client p with
                           | Some _ => VStr (MODEL_ID p)
                           | None => VNone
                           end)]).

(** ** The chat handler *)

Record ChatRequest : Type := {
  message : string;
  conversationHistory : list dict
}.

(** What the [try] block of [chat] observes of the Bedrock runtime: any of
    its three calls may raise, or [json.loads(resp["body"].read())] yields a
    decoded body. *)
Inductive invocation : Type :=
| InvokeRaises (e : lib_exn)
| ReadRaises (e : lib_exn)
| LoadsRaises (e : lib_exn)
| Body (body : value).

(** The runtime behind [bedrock_client.invoke_model(modelId=..., body=...,
    contentType=...)], as a function of the handle, the model identifier,
    the payload (sent as [json.dumps(payload)], which is total on these
    values) and the content type. *)
Definition bedrock_runtime : Type :=
  client -> string -> value -> string -> invocation.

(** The [for msg in messages] loop, appending to [bedrock_messages]. *)
Fixpoint bedrock_loop (messages : list dict) (bedrock_messages : list value)
  : result (list value) :=
  match messages with
  | [] => Return bedrock_messages
  | msg :: rest =>
      role <- getitem msg "role" ;;
      content <- getitem msg "content" ;;
      bedrock_loop rest
        (bedrock_messages ++
           [VDict [("role", role);
                   ("content", VList [VDict [("text", content)]])]])
  end.

(** The payload assembled from [messages]: the loop, then the dict literal
    with its constant [inferenceConfig] block. *)
Definition payload_for (messages : list dict) : result value :=
  bedrock_messages <- bedrock_loop messages [] ;;
  Return (VDict [("messages", VList bedrock_messages);
                 ("inferenceConfig",
                   VDict [("maxTokens", VInt 512);
                          ("stopSequences", VList []);
                          ("temperature", VFloat 0.7%float);
                          ("topP", VFloat 0.9%float)])]).

(** The [try ... except ClientError as e] block. *)
Definition try_invoke (i : invocation) : result value :=
  match i with
  | Body body => Return body
  | InvokeRaises e | ReadRaises e | LoadsRaises e =>
      if isinstance_ClientError e
      then Raise (HTTPException 502
                    ("Bedrock invocation failed: " ++ str_exn e)%string)
      else Raise (LibraryError e)
  end.

(** [out[0]] of a list that is known to be non-empty. *)
Definition first (out : value) : value :=
  match out with
  | VList (x :: _) => x
  | _ => VNone
  end.

(** The condition of the validation [if], with Python's short-circuit
    [or]: [out[0].get("text")] is only evaluated on a non-empty list. *)
Definition invalid (out : value) : result bool :=
  if negb (truthy out) then Return true
  else if negb (isinstance_list out) then Return true
  else
    text <- get (first out) "text" VNone ;;
    Return (negb (truthy text)).

(** The dict literals [{"role": "user", "content": req.message}] and
    [{"role": "assistant", "content": assistant_text}]. *)
Definition user_message (m : string) : dict :=
  [("role", VStr "user"); ("content", VStr m)].

Definition assistant_message (assistant_text : value) : dict :=
  [("role", VStr "assistant"); ("content", assistant_text)].

Definition chat (invoke_model : bedrock_runtime) (req : ChatRequest)
  (p : process) : result value * process :=
  let (created, p) := match bedrock_client p with
                      | None => create_client p
                      | Some _ => (Return tt, p)
                      end in
  let messages := conversationHistory req ++ [user_message (message req)] in
  (ready <- created ;;
   payload <- payload_for messages ;;
   body <- match bedrock_client p with
           | Some c =>
               try_invoke (invoke_model c (MODEL_ID p) payload
                             "application/json")
           | None =>
               Raise (AttributeError
                        "'NoneType' object has no attribute 'invoke_model'")
           end ;;
   output <- get body "output" (VDict []) ;;
   msg <- get output "message" (VDict []) ;;
   out <- get msg "content" VNone ;;
   bad <- invalid out ;;
   if bad then Raise (HTTPException 502 "Invalid response from model")
   else
     assistant_text <- subscript (first out) "text" ;;
     let messages := messages ++ [assistant_message assistant_text] in
     Return (VDict [("success", VBool true);
                    ("response", assistant_text);
                    ("conversationHistory", VList (map VDict messages))]),
   p).

(** ** The HTTP front door

    What FastAPI makes of a handler's outcome: a returned dict is rendered
    with [json.dumps(..., allow_nan=False)] as the body of a 200 response,
    which raises [ValueError] on a NaN or an infinity; an [HTTPException]
    becomes a response with its status code and the body
    [{"detail": detail}]; and any other exception leaves the application
    unhandled (the server then answers 500). *)

Inductive http_response : Type :=
| Response (status : Z) (body : value)
| Unhandled (e : exn).

Definition respond (r : result value) : http_response :=
  match r with
  | Return body =>
      if renderable body then Response 200 body
      else Unhandled
             (LibraryError
                (OtherError "ValueError"
                   "Out of range float values are not JSON compliant"))
  | Raise (HTTPException status_code detail) =>
      Response status_code (VDict [("detail", VStr detail)])
  | Raise e => Unhandled e
  end.

Definition GET_health (p : process) : http_response * process :=
  (respond (health p), p).

Definition POST_chat (invoke_model : bedrock_runtime) (req : ChatRequest)
  (p : process) : http_response * process :=
  let (r, p') := chat invoke_model req p in (respond r, p').

(** ** Runs of the process *)

Inductive operation : Type :=
| Startup
| Health
| Chat (invoke_model : bedrock_runtime) (req : ChatRequest).

Definition step (p : process) (o : operation) : process :=
  match o with
  | Startup => snd (startup_event p)
  | Health => snd (GET_health p)
  | Chat invoke_model req => snd (POST_chat invoke_model req p)
  end.

Definition run (ops : list operation) (p : process) : process :=
  fold_left step ops p.

(** An operation that touches the client handle. *)
Definition uses_client (o : operation) : bool :=
  match o with
  | Health => false
  | Startup | Chat _ _ => true
  end.

(** ** Vocabulary of the specification *)

(** A provider body "exposing a nested output/message/content list whose
    first element carries non-empty text" [t]. *)
Definition exposes_text (body t : value) : Prop :=
  exists b o m d rest,
    body = VDict b /\
    lookup "output" b = Some (VDict o) /\
    lookup "message" o = Some (VDict m) /\
    lookup "content" m = Some (VList (VDict d :: rest)) /\
    lookup "text" d = Some t /\
    truthy t = true.

(** The provider's wire form of one message: role kept, content wrapped. *)
Definition wire (msg : dict) (b : value) : Prop :=
  exists role content,
    lookup "role" msg = Some role /\
    lookup "content" msg = Some content /\
    b = VDict [("role", role);
               ("content", VList [VDict [("text", content)]])].

(** The exception, if any, the [try] block of [chat] met. *)
Definition raised (i : invocation) : option lib_exn :=
  match i with
  | InvokeRaises e | ReadRaises e | LoadsRaises e => Some e
  | Body _ => None
  end.

(** "Transport/client-level" errors of the provider call: a service error
    response ([ClientError]) or a failure of the connection itself (the
    [BotoCoreError] family). *)
Definition transport_or_client_level (e : lib_exn) : bool :=
  match e with
  | ClientError _ | BotoCoreError _ _ => true
  | JSONDecodeError _ | OtherError _ _ => false
  end.

(** The value at the nested output/message/content path of a decoded
    body, when the path exists. *)
Definition content_path (body : value) : option value :=
  match body with
  | VDict b =>
      match lookup "output" b with
      | Some (VDict o) =>
          match lookup "message" o with
          | Some (VDict m) => lookup "content" m
          | _ => None
          end
      | _ => None
      end
  | _ => None
  end.

(** The text carried by a content element, when it has one. *)
Definition text_of (x : value) : option value :=
  match x with
  | VDict d => lookup "text" d
  | _ => None
  end.

(** A body that deviates from the expected shape: the content path is
    missing, or is not a list, or is an empty list, or the first element's
    text is missing or empty. *)
Definition deviates (body : value) : bool :=
  match content_path body with
  | None => true
  | Some (VList []) => true
  | Some (VList (x :: _)) =>
      match text_of x with
      | None => true
      | Some (VStr "") => true
      | Some _ => false
      end
  | Some _ => true
  end.

(** Bodies in which every value on the way to the text that is present is
    of the container type the probing expects: the body, [output] and
    [message] are dicts and the first content element is a dict. *)
Definition dict_shaped (body : value) : bool :=
  match body with
  | VDict b =>
      match lookup "output" b with
      | None => true
      | Some (VDict o) =>
          match lookup "message" o with
          | None => true
          | Some (VDict m) =>
              match lookup "content" m with
              | Some (VList (x :: _)) =>
                  match x with VDict _ => true | _ => false end
              | _ => true
              end
          | Some _ => false
          end
      | Some _ => false
      end
  | _ => false
  end.

(** ** Scenarios *)

(** The scenario of the specification: [{"message": "hello"}] answered by
    [{"output":{"message":{"content":[{"text":"hi there"}]}}}]. *)
Definition hello : ChatRequest :=
  {| message := "hello"; conversationHistory := [] |}.

Definition hi_there : value :=
  VDict [("output",
           VDict [("message",
                    VDict [("content",
                             VList [VDict [("text", VStr "hi there")]])])])].

(** The second scenario: history [a, b], new message [c], reply [d]. *)
Definition a_b_c : ChatRequest :=
  {| message := "c";
     conversationHistory :=
       [[("role", VStr "user"); ("content", VStr "a")];
        [("role", VStr "assistant"); ("content", VStr "b")]] |}.

Definition reply_d : value :=
  VDict [("output",
           VDict [("message",
                    VDict [("content", VList [VDict [("text", VStr "d")]])])])].

Definition a_b_c_d : value :=
  VDict [("success", VBool true);
         ("response", VStr "d");
         ("conversationHistory",
           VList [VDict [("role", VStr "user"); ("content", VStr "a")];
                  VDict [("role", VStr "assistant"); ("content", VStr "b")];
                  VDict [("role", VStr "user"); ("content", VStr "c")];
                  VDict [("role", VStr "assistant"); ("content", VStr "d")]])].

(** A provider that cannot be reached: botocore raises
    [EndpointConnectionError] from [invoke_model]. *)
Definition unreachable : lib_exn :=
  BotoCoreError "EndpointConnectionError"
    "Could not connect to the endpoint URL".

(** A throttled call: a [ClientError] from [invoke_model]. *)
Definition throttled : lib_exn :=
  ClientError
    "An error occurred (ThrottlingException) when calling the InvokeModel operation: Too many requests".

(** Decoded bodies [{"output": null}] and
    [{"output": {"message": {"content": ["hi"]}}}]. *)
Definition null_output : value :=
  VDict [("output", VNone)].

Definition bare_text : value :=
  VDict [("output",
           VDict [("message", VDict [("content", VList [VStr "hi"])])])].

(** A provider body that is not JSON. *)
Definition not_json : lib_exn :=
  JSONDecodeError "Expecting value: line 1 column 1 (char 0)".

(** A provider that always answers [hi_there]. *)
Definition says_hi : bedrock_runtime :=
  fun _ _ _ _ => Body hi_there.

(** A process started without configuration, after its startup event. *)
Definition started : process :=
  {| environ := [];
     MODEL_ID := "us.amazon.nova-lite-v1:0";
     bedrock_client :=
       Some {| service_name := "bedrock-runtime";
               region_name := "us-east-1" |};
     boto3_clients :=
       [{| service_name := "bedrock-runtime"; region_name := "us-east-1" |}]
  |}.

(** A process whose region [boto3.client] refuses. *)
Definition fresh_bad : process :=
  import_module [("AWS_REGION", "bad region!")].


(** A process configured for another region whose startup event has not
    run. *)
Definition fresh_eu : process :=
  import_module [("AWS_REGION", "eu-west-1")].

(** ** Region of a Lambda ARN

    [extract_region_from_arn] searches its argument with the regular
    expression [arn:aws:lambda:([^:]+):].  The pattern is a sequence of
    literal characters and one capturing group [([^c]+)]; it is matched the
    way Python's [re] does, by backtracking: the group is greedy and gives
    characters back one at a time, and [re.search] tries the start
    positions from left to right.  A string stands for its UTF-8 bytes;
    the colon is a single byte that occurs in no multi-byte sequence, so
    matching bytes and matching code points agree. *)

Inductive item : Type :=
| Char (c : ascii)
| GroupPlusNot (c : ascii).

Fixpoint literal (s : string) : list item :=
  match s with
  | EmptyString => []
  | String c s' => Char c :: literal s'
  end.

(** [r"arn:aws:lambda:([^:]+):"] *)
Definition lambda_arn : list item :=
  literal "arn:aws:lambda:" ++ [GroupPlusNot ":"] ++ literal ":".

(** The group [([^c]+)] followed by the rest of the pattern [k]: [taken]
    is what the group has consumed so far.  The longer match is tried
    first; when the rest of the pattern fails after it, the group stops
    where it is, provided it holds at least one character. *)
Fixpoint plus_not {A : Type} (c : ascii) (k : string -> string -> option A)
  (taken s : string) : option A :=
  let stop := if (taken =? "")%string then None else k taken s in
  match s with
  | EmptyString => stop
  | String a s' =>
      if (a =? c)%char then stop
      else
        match plus_not c k (taken ++ String a "")%string s' with
        | Some m => Some m
        | None => stop
        end
  end.

(** The pattern matched at the start of [s]; the result is group 1, if
    set. *)
Fixpoint match_here (pattern : list item) (s : string)
  (group : option string) : option (option string) :=
  match pattern with
  | [] => Some group
  | Char c :: pattern' =>
      match s with
      | EmptyString => None
      | String a s' =>
          if (a =? c)%char then match_here pattern' s' group else None
      end
  | GroupPlusNot c :: pattern' =>
      plus_not c (fun taken rest => match_here pattern' rest (Some taken))
        "" s
  end.

(** [re.search(pattern, s)]: the match at the leftmost position that has
    one. *)
Fixpoint re_search (pattern : list item) (s : string)
  : option (option string) :=
  match match_here pattern s None with
  | Some m => Some m
  | None =>
      match s with
      | EmptyString => None
      | String _ s' => re_search pattern s'
      end
  end.

(** [m.group(1) if m else os.environ.get("AWS_REGION", "us-east-1")];
    [group(1)] of a match whose group is unset is [None]. *)
Definition extract_region_from_arn (env : list (string * string))
  (arn : string) : value :=
  match re_search lambda_arn arn with
  | Some (Some region) => VStr region
  | Some None => VNone
  | None => VStr (environ_get env "AWS_REGION" "us-east-1")
  end.

(** Whether the character [c] occurs in [s]. *)
Fixpoint occurs (c : ascii) (s : string) : bool :=
  match s with
  | EmptyString => false
  | String a s' => (a =? c)%char || occurs c s'
  end.

(** The longest prefix of [s] without [c], and what follows it. *)
Fixpoint span_not (c : ascii) (s : string) : string * string :=
  match s with
  | EmptyString => ("", "")
  | String a s' =>
      if (a =? c)%char then ("", s)
      else let (r, rest) := span_not c s' in (String a r, rest)
  end.

(** ** The entry point

    [run_with_ngrok] only acts on the outside world; it is modelled by the
    effects it performs, in order, and how it ends.  Of the library calls,
    the two of [ngrok] and [uvicorn.run] may fail; [nest_asyncio.apply] and
    [print] are taken to return. *)

Inductive effect : Type :=
| nest_asyncio_apply
| print (line : string)
| ngrok_set_auth_token (token : string)
| ngrok_connect (port : Z)
| uvicorn_run (host : string) (port : Z) (log_level : string).

(** The tunnel service: [ngrok.set_auth_token(token)] returns or raises,
    and [ngrok.connect(port).public_url], called under a token, is a URL
    or raises. *)
Record ngrok : Type := {
  set_auth_token : string -> option lib_exn;
  connect : string -> Z -> lib_exn + string
}.

(** [os.environ.get(key)], [None] when the variable is unset. *)
Fixpoint environ_get_None (env : list (string * string)) (key : string)
  : option string :=
  match env with
  | [] => None
  | (k, v) :: rest => if (k =? key)%string then Some v
                      else environ_get_None rest key
  end.

Definition no_token_warning : string :=
  "⚠ ngrok トークンが NGROK_TOKEN 環境変数に設定されていません".

(** [uvicorn.run(app, host=..., port=..., log_level=...)] returns when the
    server is stopped, or raises. *)
Definition uvicorn : Type := string -> Z -> string -> option lib_exn.

Definition run_with_ngrok (env : list (string * string)) (tunnel : ngrok)
  (server : uvicorn) (port : Z) : list effect * result unit :=
  match environ_get_None env "NGROK_TOKEN" with
  | None => ([nest_asyncio_apply; print no_token_warning], Return tt)
  | Some ngrok_token =>
      if (ngrok_token =? "")%string
      then ([nest_asyncio_apply; print no_token_warning], Return tt)
      else
        match set_auth_token tunnel ngrok_token with
        | Some e =>
            ([nest_asyncio_apply; ngrok_set_auth_token ngrok_token],
             Raise (LibraryError e))
        | None =>
            match connect tunnel ngrok_token port with
            | inl e =>
                ([nest_asyncio_apply; ngrok_set_auth_token ngrok_token;
                  ngrok_connect port],
                 Raise (LibraryError e))
            | inr public_url =>
                ([nest_asyncio_apply; ngrok_set_auth_token ngrok_token;
                  ngrok_connect port;
                  print ("🚀 Public URL: " ++ public_url)%string;
                  uvicorn_run "0.0.0.0" port "info"],
                 match server "0.0.0.0" port "info" with
                 | Some e => Raise (LibraryError e)
                 | None => Return tt
                 end)
            end
        end
  end.

(** [if __name__ == "__main__": run_with_ngrok(8000)] *)
Definition main (env : list (string * string)) (tunnel : ngrok)
  (server : uvicorn) : list effect * result unit :=
  run_with_ngrok env tunnel server 8000.


(** ** Further vocabulary *)

(** The process after [os.environ] has been changed from outside the
    handlers. *)
Definition with_environ (env : list (string * string)) (p : process)
  : process :=
  {| environ := env;
     MODEL_ID := MODEL_ID p;
     bedrock_client := bedrock_client p;
     boto3_clients := boto3_clients p |}.

(** The first key, of [role] and [content] in that order, that an entry of
    the message list lacks. *)
Fixpoint first_missing (messages : list dict) : option string :=
  match messages with
  | [] => None
  | msg :: rest =>
      match lookup "role" msg with
      | None => Some "role"
      | Some _ =>
          match lookup "content" msg with
          | None => Some "content"
          | Some _ => first_missing rest
          end
      end
  end.

(** The body of a successful turn. *)
Definition success (req : ChatRequest) (t : value) : value :=
  VDict [("success", VBool true);
         ("response", t);
         ("conversationHistory",
           VList (map VDict
                    (conversationHistory req ++
                       [user_message (message req)] ++
                       [assistant_message t])))].

(** * Properties *)

(** ** The client handle *)

(** The guarded creation either ends with a held client, or, on a process
    without one, fails with what [boto3.client] raised and leaves the
    process as it was. *)
Lemma startup_event_client (p : process) :
  (exists c,
      bedrock_client (snd (startup_event p)) = Some c /\
      fst (startup_event p) = Return tt) \/
  (exists e,
      bedrock_client p = None /\
      boto3_client_raises "bedrock-runtime"
        (environ_get (environ p) "AWS_REGION" "us-east-1") = Some e /\
      startup_event p = (Raise (LibraryError (raised_by_boto3 e)), p)).
Proof.
  unfold startup_event, create_client.
  destruct (bedrock_client p) as [c|] eqn:E.
  - left. exists c. split; [exact E|reflexivity].
  - destruct (boto3_client_raises _ _) as [e|] eqn:Eb.
    + right. exists e. repeat split.
    + left. eexists. split; reflexivity.
Qed.

Lemma startup_event_Return (p : process) (c : client) :
  bedrock_client (snd (startup_event p)) = Some c ->
  fst (startup_event p) = Return tt.
Proof.
  intros Hc.
  destruct (startup_event_client p) as [(c' & _ & H)|(e & Hn & _ & H)];
    [exact H|].
  rewrite H in Hc. cbn [snd] in Hc. congruence.
Qed.

Lemma startup_event_MODEL_ID (p : process) :
  MODEL_ID (snd (startup_event p)) = MODEL_ID p.
Proof.
  unfold startup_event, create_client.
  destruct (bedrock_client p); [reflexivity|].
  destruct (boto3_client_raises _ _); reflexivity.
Qed.

Lemma startup_event_initialised (p : process) (c : client) :
  bedrock_client p = Some c -> startup_event p = (Return tt, p).
Proof.
  intros E. unfold startup_event. rewrite E. reflexivity.
Qed.

(** [chat] begins with the guarded creation that [startup_event] performs
    too, and goes on only when it did not raise. *)
Lemma chat_unfold (invoke_model : bedrock_runtime) (req : ChatRequest)
  (p : process) :
  chat invoke_model req p =
    (let p' := snd (startup_event p) in
     let messages :=
       conversationHistory req ++ [user_message (message req)] in
     ready <- fst (startup_event p) ;;
     payload <- payload_for messages ;;
     body <- match bedrock_client p' with
             | Some c =>
                 try_invoke (invoke_model c (MODEL_ID p') payload
                               "application/json")
             | None =>
                 Raise (AttributeError
                          "'NoneType' object has no attribute 'invoke_model'")
             end ;;
     output <- get body "output" (VDict []) ;;
     msg <- get output "message" (VDict []) ;;
     out <- get msg "content" VNone ;;
     bad <- invalid out ;;
     if bad then Raise (HTTPException 502 "Invalid response from model")
     else
       assistant_text <- subscript (first out) "text" ;;
       let messages := messages ++ [assistant_message assistant_text] in
       Return (VDict [("success", VBool true);
                      ("response", assistant_text);
                      ("conversationHistory", VList (map VDict messages))]),
     snd (startup_event p)).
Proof.
  unfold chat.
  change (match bedrock_client p with
          | Some _ => (Return tt, p)
          | None => create_client p
          end) with (startup_event p).
  destruct (startup_event p) as [created p']. reflexivity.
Qed.

(** When the creation of the client raises, so does [chat]. *)
Lemma chat_creation_Raise (invoke_model : bedrock_runtime)
  (req : ChatRequest) (p : process) (e : exn) :
  fst (startup_event p) = Raise e ->
  fst (chat invoke_model req p) = Raise e.
Proof.
  intros H. rewrite chat_unfold. cbv zeta. cbn [fst]. rewrite H. reflexivity.
Qed.

(** The only effect of [chat] on the process is that guarded creation. *)
Lemma chat_process (invoke_model : bedrock_runtime) (req : ChatRequest)
  (p : process) :
  snd (chat invoke_model req p) = snd (startup_event p).
Proof. rewrite chat_unfold. reflexivity. Qed.

Lemma POST_chat_process (invoke_model : bedrock_runtime) (req : ChatRequest)
  (p : process) :
  snd (POST_chat invoke_model req p) = snd (startup_event p).
Proof.
  unfold POST_chat. rewrite <- (chat_process invoke_model req p).
  destruct (chat invoke_model req p). reflexivity.
Qed.

Lemma POST_chat_response (invoke_model : bedrock_runtime) (req : ChatRequest)
  (p : process) :
  fst (POST_chat invoke_model req p) = respond (fst (chat invoke_model req p)).
Proof.
  unfold POST_chat. destruct (chat invoke_model req p). reflexivity.
Qed.

(** ** Payload construction *)

Lemma bedrock_loop_Return (messages : list dict) :
  forall acc out,
    bedrock_loop messages acc = Return out <->
    exists bs, Forall2 wire messages bs /\ out = acc ++ bs.
Proof.
  induction messages as [|msg rest IH]; intros acc out; simpl.
  - split.
    + intros H. injection H as <-. exists []. split; [constructor|].
      now rewrite app_nil_r.
    + intros (bs & HF & ->). inversion HF; subst. now rewrite app_nil_r.
  - unfold getitem.
    split.
    + destruct (lookup "role" msg) as [role|] eqn:Er; simpl; [|discriminate].
      destruct (lookup "content" msg) as [content|] eqn:Ec; simpl;
        [|discriminate].
      intros H. apply IH in H. destruct H as (bs & HF & ->).
      eexists (_ :: bs). split.
      * constructor; [|exact HF]. exists role, content. repeat split; assumption.
      * now rewrite <- app_assoc.
    + intros (bs & HF & ->). inversion HF as [|? b ? bs' Hw HF']; subst.
      destruct Hw as (role & content & -> & -> & ->). simpl.
      apply IH. exists bs'. split; [exact HF'|]. now rewrite <- app_assoc.
Qed.

(** C3: the payload [chat] builds from an ordered message list exists
    exactly when every entry has a role and a content, and is then the
    dict whose [messages] are the entries in the same order, each as
    [{"role": role, "content": [{"text": content}]}], and whose
    [inferenceConfig] is the constant block maxTokens 512, no stop
    sequences, temperature 0.7, topP 0.9. *)
Theorem payload_for_wire (messages : list dict) (payload : value) :
  payload_for messages = Return payload <->
  exists bedrock_messages,
    Forall2 wire messages bedrock_messages /\
    payload =
      VDict [("messages", VList bedrock_messages);
             ("inferenceConfig",
               VDict [("maxTokens", VInt 512);
                      ("stopSequences", VList []);
                      ("temperature", VFloat 0.7%float);
                      ("topP", VFloat 0.9%float)])].
Proof.
  unfold payload_for. split.
  - destruct (bedrock_loop messages []) as [bms|e] eqn:E; simpl;
      [|discriminate].
    intros H. injection H as <-.
    apply bedrock_loop_Return in E. destruct E as (bs & HF & ->).
    exists bs. split; [exact HF|reflexivity].
  - intros (bms & HF & ->).
    assert (E : bedrock_loop messages [] = Return bms).
    { apply bedrock_loop_Return. exists bms. split; [exact HF|reflexivity]. }
    rewrite E. reflexivity.
Qed.

(** ** The successful turn *)

(** Unfolding of [chat] once the payload is built and the runtime consulted. *)
Lemma chat_invoked (invoke_model : bedrock_runtime) (req : ChatRequest)
  (p : process) (c : client) (payload : value) :
  bedrock_client (snd (startup_event p)) = Some c ->
  payload_for (conversationHistory req ++ [user_message (message req)])
    = Return payload ->
  fst (chat invoke_model req p) =
    (body <- try_invoke (invoke_model c (MODEL_ID p) payload
                           "application/json") ;;
     output <- get body "output" (VDict []) ;;
     msg <- get output "message" (VDict []) ;;
     out <- get msg "content" VNone ;;
     bad <- invalid out ;;
     if bad then Raise (HTTPException 502 "Invalid response from model")
     else
       assistant_text <- subscript (first out) "text" ;;
       Return (VDict [("success", VBool true);
                      ("response", assistant_text);
                      ("conversationHistory",
                        VList (map VDict
                                 ((conversationHistory req ++
                                     [user_message (message req)]) ++
                                    [assistant_message assistant_text])))])).
Proof.
  intros Hc Hp. rewrite chat_unfold. cbv zeta. cbn [fst].
  rewrite (startup_event_Return p c Hc), Hp, Hc, startup_event_MODEL_ID.
  reflexivity.
Qed.

(** The runtime is consulted at the payload [payload_for] built, and
    nowhere else. *)
Lemma chat_invokes_payload (invoke_model : bedrock_runtime)
  (req : ChatRequest) (p : process) (payload : value) :
  payload_for (conversationHistory req ++ [user_message (message req)])
    = Return payload ->
  chat invoke_model req p =
    chat (fun c model _ content_type =>
            invoke_model c model payload content_type) req p.
Proof.
  intros Hp. rewrite !chat_unfold. cbv zeta.
  destruct (fst (startup_event p)); cbn [bind]; [|reflexivity].
  rewrite Hp. reflexivity.
Qed.


(** A text, and a history whose entries hold texts only, can always be
    rendered. *)
Lemma renderable_text (s : string) : renderable (VStr s) = true.
Proof. reflexivity. Qed.

Lemma renderable_texts (history : list dict) :
  Forall (fun d => Forall (fun kv => exists s, snd kv = VStr s) d) history ->
  renderable (VList (map VDict history)) = true.
Proof.
  intros H. cbn [renderable]. apply forallb_forall. intros v Hv.
  apply in_map_iff in Hv. destruct Hv as (d & <- & Hd).
  rewrite Forall_forall in H. specialize (H d Hd).
  cbn [renderable]. apply forallb_forall. intros kv Hkv.
  rewrite Forall_forall in H. destruct (H kv Hkv) as (s & ->). reflexivity.
Qed.



(** Outcome of [chat] when one of the calls of the [try] block raises. *)
Lemma chat_raised (invoke_model : bedrock_runtime) (req : ChatRequest)
  (p : process) (c : client) (payload : value) (e : lib_exn) :
  bedrock_client (snd (startup_event p)) = Some c ->
  payload_for (conversationHistory req ++ [user_message (message req)])
    = Return payload ->
  raised (invoke_model c (MODEL_ID p) payload "application/json") = Some e ->
  fst (chat invoke_model req p) =
    if isinstance_ClientError e
    then Raise (HTTPException 502
                  ("Bedrock invocation failed: " ++ str_exn e)%string)
    else Raise (LibraryError e).
Proof.
  intros Hc Hp Hr. rewrite (chat_invoked _ _ _ _ _ Hc Hp).
  destruct (invoke_model c (MODEL_ID p) payload "application/json");
    simpl in Hr; try discriminate Hr; injection Hr as ->;
    cbn [try_invoke]; destruct (isinstance_ClientError e); reflexivity.
Qed.

(** ** Outcomes of [chat] *)

(** The payload loop fails only on a message without role or content. *)
Lemma bedrock_loop_Raise (messages : list dict) :
  forall acc e,
    bedrock_loop messages acc = Raise e -> exists key, e = KeyError key.
Proof.
  induction messages as [|msg rest IH]; intros acc e; simpl; [discriminate|].
  unfold getitem.
  destruct (lookup "role" msg); simpl.
  - destruct (lookup "content" msg); simpl.
    + apply IH.
    + intros H. injection H as <-. eexists. reflexivity.
  - intros H. injection H as <-. eexists. reflexivity.
Qed.

Lemma payload_for_Raise (messages : list dict) (e : exn) :
  payload_for messages = Raise e -> exists key, e = KeyError key.
Proof.
  unfold payload_for.
  destruct (bedrock_loop messages []) as [bms|e0] eqn:E; simpl;
    [discriminate|].
  intros H. injection H as <-. exact (bedrock_loop_Raise _ _ _ E).
Qed.

(** Before the provider is consulted, [chat] can only fail creating the
    client or building the payload. *)
Lemma chat_payload_Raise (invoke_model : bedrock_runtime) (req : ChatRequest)
  (p : process) (c : client) (e : exn) :
  bedrock_client (snd (startup_event p)) = Some c ->
  payload_for (conversationHistory req ++ [user_message (message req)])
    = Raise e ->
  fst (chat invoke_model req p) = Raise e.
Proof.
  intros Hc Hp. rewrite chat_unfold. cbv zeta. cbn [fst].
  rewrite (startup_event_Return p c Hc), Hp. reflexivity.
Qed.

Lemma get_Return_dict (v : value) (key : string) (default x : value) :
  get v key default = Return x ->
  exists kvs,
    v = VDict kvs /\
    x = match lookup key kvs with Some y => y | None => default end.
Proof.
  destruct v; simpl; try discriminate.
  intros H. injection H as <-. eexists. split; reflexivity.
Qed.

Lemma get_Raise (v : value) (key : string) (default : value) (e : exn) :
  get v key default = Raise e -> exists msg, e = AttributeError msg.
Proof.
  destruct v; simpl; try discriminate;
    intros H; injection H as <-; eexists; reflexivity.
Qed.

(** The validation accepts exactly a non-empty list whose first element is
    a dict with a truthy text. *)
Lemma invalid_false (out : value) :
  invalid out = Return false ->
  exists d rest t,
    out = VList (VDict d :: rest) /\ lookup "text" d = Some t /\
    truthy t = true.
Proof.
  unfold invalid.
  destruct (truthy out) eqn:Et; cbn [negb]; [|discriminate].
  destruct out as [| | | | |xs|]; cbn [isinstance_list negb]; try discriminate.
  destruct xs as [|x rest]; [discriminate Et|]. cbn [first].
  destruct (get x "text" VNone) as [text|] eqn:Eg; cbn [bind];
    [|discriminate].
  apply get_Return_dict in Eg. destruct Eg as (d & -> & ->).
  destruct (lookup "text" d) as [t|] eqn:Lt; [|discriminate].
  intros H. injection H as H. apply negb_false_iff in H.
  exists d, rest, t. split; [reflexivity|]. split; [exact Lt|exact H].
Qed.

Lemma invalid_Raise (out : value) (e : exn) :
  invalid out = Raise e -> exists msg, e = AttributeError msg.
Proof.
  unfold invalid.
  destruct (negb (truthy out)); [discriminate|].
  destruct (negb (isinstance_list out)); [discriminate|].
  destruct (get (first out) "text" VNone) eqn:Eg; cbn [bind]; [discriminate|].
  intros H. injection H as <-. exact (get_Raise _ _ _ _ Eg).
Qed.

(** The three outcomes of [chat] on a decoded body: the success dict, for
    a body exposing text; the fixed 502; or an [AttributeError] from
    probing a value that is not a dict. *)
Lemma chat_Body (invoke_model : bedrock_runtime) (req : ChatRequest)
  (p : process) (c : client) (payload body : value) :
  bedrock_client (snd (startup_event p)) = Some c ->
  payload_for (conversationHistory req ++ [user_message (message req)])
    = Return payload ->
  invoke_model c (MODEL_ID p) payload "application/json" = Body body ->
  (exists t,
      exposes_text body t /\
      fst (chat invoke_model req p) =
        Return (VDict [("success", VBool true);
                       ("response", t);
                       ("conversationHistory",
                         VList (map VDict
                                  ((conversationHistory req ++
                                      [user_message (message req)]) ++
                                     [assistant_message t])))])) \/
  fst (chat invoke_model req p) =
    Raise (HTTPException 502 "Invalid response from model") \/
  (exists msg, fst (chat invoke_model req p) = Raise (AttributeError msg)).
Proof.
  intros Hc Hp Hi. rewrite (chat_invoked _ _ _ _ _ Hc Hp), Hi.
  cbn [try_invoke bind].
  destruct (get body "output" (VDict [])) as [output|e] eqn:E1; cbn [bind].
  2:{ right; right. apply get_Raise in E1. destruct E1 as (msg & ->).
      eexists. reflexivity. }
  destruct (get output "message" (VDict [])) as [msg|e] eqn:E2; cbn [bind].
  2:{ right; right. apply get_Raise in E2. destruct E2 as (s & ->).
      eexists. reflexivity. }
  destruct (get msg "content" VNone) as [out|e] eqn:E3; cbn [bind].
  2:{ right; right. apply get_Raise in E3. destruct E3 as (s & ->).
      eexists. reflexivity. }
  destruct (invalid out) as [bad|e] eqn:E4; cbn [bind].
  2:{ right; right. apply invalid_Raise in E4. destruct E4 as (s & ->).
      eexists. reflexivity. }
  destruct bad; [right; left; reflexivity|].
  left. apply invalid_false in E4. destruct E4 as (d & rest & t & -> & Ht & Htr).
  apply get_Return_dict in E1, E2, E3.
  destruct E1 as (b & -> & ->), E2 as (o & Eo & ->), E3 as (m & Em & Ec).
  exists t. split.
  - destruct (lookup "content" m) as [x|] eqn:Lc; [|discriminate Ec].
    subst x.
    destruct (lookup "message" o) as [x|] eqn:Lm;
      [|injection Em as <-; discriminate Lc].
    subst x.
    destruct (lookup "output" b) as [x|] eqn:Lo;
      [|injection Eo as <-; discriminate Lm].
    subst x.
    exists b, o, m, d, rest. repeat split; assumption.
  - cbn [first subscript]. unfold getitem. rewrite Ht. reflexivity.
Qed.

(** Every outcome of [chat]. *)
Lemma chat_outcomes (invoke_model : bedrock_runtime) (req : ChatRequest)
  (p : process) :
  (exists t,
      fst (chat invoke_model req p) =
        Return (VDict [("success", VBool true);
                       ("response", t);
                       ("conversationHistory",
                         VList (map VDict
                                  ((conversationHistory req ++
                                      [user_message (message req)]) ++
                                     [assistant_message t])))])) \/
  (exists detail,
      fst (chat invoke_model req p) = Raise (HTTPException 502 detail)) \/
  (exists e,
      fst (chat invoke_model req p) = Raise e /\
      forall status_code detail, e <> HTTPException status_code detail).
Proof.
  destruct (startup_event_client p) as [(c & Hc & _)|(e & _ & _ & Hs)].
  2:{ right; right. exists (LibraryError (raised_by_boto3 e)).
      split; [|discriminate].
      apply chat_creation_Raise. rewrite Hs. reflexivity. }
  destruct (payload_for
              (conversationHistory req ++ [user_message (message req)]))
    as [payload|e0] eqn:Hp.
  - destruct (invoke_model c (MODEL_ID p) payload "application/json")
      as [e|e|e|body] eqn:Hi.
    4:{ destruct (chat_Body _ _ _ _ _ _ Hc Hp Hi) as [(t & _ & H)|[H|(m & H)]].
        - left. exists t. exact H.
        - right; left. eexists. exact H.
        - right; right. eexists. split; [exact H|]. discriminate. }
    all: rewrite (chat_raised _ _ _ _ _ e Hc Hp) by (rewrite Hi; reflexivity).
    all: destruct (isinstance_ClientError e);
      [right; left; eexists; reflexivity
      |right; right; eexists; split; [reflexivity|discriminate]].
  - right; right. exists e0.
    split; [exact (chat_payload_Raise _ _ _ _ _ Hc Hp)|].
    apply payload_for_Raise in Hp. destruct Hp as (key & ->). discriminate.
Qed.

(** Whatever [chat] returns is the success dict over the extended
    history. *)
Lemma chat_Return (invoke_model : bedrock_runtime) (req : ChatRequest)
  (p : process) (v : value) :
  fst (chat invoke_model req p) = Return v ->
  exists t,
    v = VDict [("success", VBool true);
               ("response", t);
               ("conversationHistory",
                 VList (map VDict
                          ((conversationHistory req ++
                              [user_message (message req)]) ++
                             [assistant_message t])))].
Proof.
  intros H.
  destruct (chat_outcomes invoke_model req p)
    as [(t & E)|[(d & E)|(e & E & _)]]; rewrite E in H; try discriminate H.
  injection H as <-. exists t. reflexivity.
Qed.

(** The only [HTTPException]s [chat] raises are its two 502s. *)
Lemma chat_HTTPException (invoke_model : bedrock_runtime) (req : ChatRequest)
  (p : process) (status_code : Z) (detail : string) :
  fst (chat invoke_model req p) = Raise (HTTPException status_code detail) ->
  status_code = 502%Z.
Proof.
  intros H.
  destruct (chat_outcomes invoke_model req p)
    as [(t & E)|[(d & E)|(e & E & Hne)]]; rewrite E in H; try discriminate H.
  - injection H as <- _. reflexivity.
  - injection H as ->. exfalso. exact (Hne _ _ eq_refl).
Qed.

(** ** The history frame *)

Lemma firstn_map_app {A B : Type} (f : A -> B) (l : list A) (r : list B) :
  firstn (List.length l) (map f l ++ r) = map f l.
Proof.
  induction l as [|x l IH]; simpl; [reflexivity|]. now rewrite IH.
Qed.

(** C2: on success the returned [conversationHistory] has two entries more
    than the request's history, and its first N entries are the request's
    N entries, unchanged and in the same order. *)
Theorem chat_history_frame (invoke_model : bedrock_runtime)
  (req : ChatRequest) (p : process) (body : value) :
  fst (POST_chat invoke_model req p) = Response 200 body ->
  exists kvs history,
    body = VDict kvs /\
    lookup "conversationHistory" kvs = Some (VList history) /\
    List.length history = (List.length (conversationHistory req) + 2)%nat /\
    firstn (List.length (conversationHistory req)) history =
      map VDict (conversationHistory req).
Proof.
  rewrite POST_chat_response.
  destruct (fst (chat invoke_model req p)) as [v|e] eqn:E; cbn [respond].
  - destruct (renderable v); [|discriminate].
    intros H. injection H as <-.
    apply chat_Return in E. destruct E as (t & ->).
    eexists. eexists. split; [reflexivity|]. split; [reflexivity|].
    rewrite <- app_assoc, map_app. split.
    + rewrite List.length_app, List.length_map. reflexivity.
    + apply firstn_map_app.
  - destruct e; try discriminate.
    intros H. injection H as -> <-.
    apply chat_HTTPException in E. discriminate E.
Qed.


(** ** Error mapping *)

(** C4, as the code has it: when the provider invocation raises a botocore
    [ClientError] [e], POST /chat answers 502 and the [detail] of the body
    is the non-empty string ["Bedrock invocation failed: "] followed by
    [str(e)]. *)
Theorem chat_ClientError_502 (invoke_model : bedrock_runtime)
  (req : ChatRequest) (p : process) (c : client) (payload : value)
  (e : lib_exn) :
  bedrock_client (snd (startup_event p)) = Some c ->
  payload_for (conversationHistory req ++ [user_message (message req)])
    = Return payload ->
  invoke_model c (MODEL_ID p) payload "application/json" = InvokeRaises e ->
  isinstance_ClientError e = true ->
  exists detail,
    fst (POST_chat invoke_model req p) =
      Response 502 (VDict [("detail", VStr detail)]) /\
    detail = ("Bedrock invocation failed: " ++ str_exn e)%string /\
    detail <> "".
Proof.
  intros Hc Hp Hi He. eexists. split; [|split; [reflexivity|discriminate]].
  rewrite POST_chat_response, (chat_raised _ _ _ _ _ e Hc Hp).
  - rewrite He. reflexivity.
  - rewrite Hi. reflexivity.
Qed.


(** C9: [chat] raises its 502 "Bedrock invocation failed" exactly when the
    [try] block was reached and the invocation, the read or the JSON
    decoding raised a [ClientError]; any other exception raised there
    leaves the handler as it is, unhandled. *)
Theorem chat_invocation_failed_iff (invoke_model : bedrock_runtime)
  (req : ChatRequest) (p : process) :
  ((exists description,
      fst (chat invoke_model req p) =
        Raise (HTTPException 502
                 ("Bedrock invocation failed: " ++ description)%string)) <->
   (exists c payload e,
      bedrock_client (snd (startup_event p)) = Some c /\
      payload_for (conversationHistory req ++ [user_message (message req)])
        = Return payload /\
      raised (invoke_model c (MODEL_ID p) payload "application/json")
        = Some e /\
      isinstance_ClientError e = true)) /\
  (forall c payload e,
      bedrock_client (snd (startup_event p)) = Some c ->
      payload_for (conversationHistory req ++ [user_message (message req)])
        = Return payload ->
      raised (invoke_model c (MODEL_ID p) payload "application/json")
        = Some e ->
      isinstance_ClientError e = false ->
      fst (chat invoke_model req p) = Raise (LibraryError e) /\
      fst (POST_chat invoke_model req p) = Unhandled (LibraryError e)).
Proof.
  split; [split|].
  - intros (description & H).
    destruct (startup_event_client p) as [(c & Hc & _)|(e & _ & _ & Hs)].
    2:{ exfalso. rewrite (chat_creation_Raise _ _ _ (LibraryError
                                                     (raised_by_boto3 e)))
          in H by (rewrite Hs; reflexivity).
        discriminate H. }
    destruct (payload_for
                (conversationHistory req ++ [user_message (message req)]))
      as [payload|e0] eqn:Hp.
    + exists c, payload.
      destruct (invoke_model c (MODEL_ID p) payload "application/json")
        as [e|e|e|body] eqn:Hi.
      4:{ exfalso.
          destruct (chat_Body _ _ _ _ _ _ Hc Hp Hi)
            as [(t & _ & E)|[E|(m & E)]]; rewrite E in H; discriminate H. }
      all: exists e; repeat split; try reflexivity; try assumption.
      all: rewrite (chat_raised _ _ _ _ _ e Hc Hp) in H
        by (rewrite Hi; reflexivity).
      all: destruct (isinstance_ClientError e);
        [reflexivity|discriminate H].
    + exfalso. rewrite (chat_payload_Raise _ _ _ _ _ Hc Hp) in H.
      apply payload_for_Raise in Hp. destruct Hp as (key & ->).
      discriminate H.
  - intros (c & payload & e & Hc & Hp & Hr & He).
    exists (str_exn e). rewrite (chat_raised _ _ _ _ _ e Hc Hp Hr), He.
    reflexivity.
  - intros c payload e Hc Hp Hr He.
    assert (H : fst (chat invoke_model req p) = Raise (LibraryError e)).
    { rewrite (chat_raised _ _ _ _ _ e Hc Hp Hr), He. reflexivity. }
    split; [exact H|]. rewrite POST_chat_response, H. reflexivity.
Qed.


(** ** Response validation *)

Lemma exposes_text_conforms (body t : value) :
  exposes_text body t -> deviates body = false.
Proof.
  intros (b & o & m & d & rest & -> & Ho & Hm & Hc & Ht & Htr).
  unfold deviates, content_path, text_of. rewrite Ho, Hm, Hc, Ht.
  destruct t as [| | | |s| |]; try reflexivity.
  destruct s; [discriminate Htr|reflexivity].
Qed.

(** On a dict-shaped body the probing cannot fail. *)
Lemma chat_dict_shaped (invoke_model : bedrock_runtime) (req : ChatRequest)
  (p : process) (c : client) (payload body : value) (msg : string) :
  bedrock_client (snd (startup_event p)) = Some c ->
  payload_for (conversationHistory req ++ [user_message (message req)])
    = Return payload ->
  invoke_model c (MODEL_ID p) payload "application/json" = Body body ->
  dict_shaped body = true ->
  fst (chat invoke_model req p) <> Raise (AttributeError msg).
Proof.
  intros Hc Hp Hi Hs. rewrite (chat_invoked _ _ _ _ _ Hc Hp), Hi.
  cbn [try_invoke bind]. unfold dict_shaped in Hs.
  destruct body as [| | | | | |b]; try discriminate Hs. cbn [get bind].
  destruct (lookup "output" b) as [output|]; cbn [get bind lookup].
  2:{ vm_compute. discriminate. }
  destruct output as [| | | | | |o]; try discriminate Hs. cbn [get bind].
  destruct (lookup "message" o) as [m|]; cbn [get bind lookup].
  2:{ vm_compute. discriminate. }
  destruct m as [| | | | | |m]; try discriminate Hs. cbn [get bind].
  destruct (lookup "content" m) as [out|]; cbn [get bind lookup].
  2:{ vm_compute. discriminate. }
  unfold invalid.
  destruct out as [| | | | |xs|]; cbn [isinstance_list negb];
    try (destruct (negb (truthy _)); cbn [bind]; discriminate).
  destruct xs as [|x rest]; cbn [truthy negb bind first].
  - discriminate.
  - destruct x as [| | | | | |d]; try discriminate Hs. cbn [get bind].
    destruct (negb _); [discriminate|].
    cbn [subscript]. unfold getitem.
    destruct (lookup "text" d); cbn [bind]; discriminate.
Qed.

(** The part of the claim the code meets: on a dict-shaped body that
    deviates from the expected shape, POST /chat answers 502 with the
    fixed detail. *)
Lemma chat_invalid_response_502 (invoke_model : bedrock_runtime)
  (req : ChatRequest) (p : process) (c : client) (payload body : value) :
  bedrock_client (snd (startup_event p)) = Some c ->
  payload_for (conversationHistory req ++ [user_message (message req)])
    = Return payload ->
  invoke_model c (MODEL_ID p) payload "application/json" = Body body ->
  dict_shaped body = true ->
  deviates body = true ->
  fst (POST_chat invoke_model req p) =
    Response 502 (VDict [("detail", VStr "Invalid response from model")]).
Proof.
  intros Hc Hp Hi Hs Hd. rewrite POST_chat_response.
  destruct (chat_Body _ _ _ _ _ _ Hc Hp Hi) as [(t & Ht & _)|[E|(msg & E)]].
  - apply exposes_text_conforms in Ht. congruence.
  - rewrite E. reflexivity.
  - exfalso. exact (chat_dict_shaped _ _ _ _ _ _ msg Hc Hp Hi Hs E).
Qed.


(** ** Life cycle of the client handle *)

Lemma step_initialised (p : process) (c : client) (o : operation) :
  bedrock_client p = Some c -> step p o = p.
Proof.
  intros E. destruct o; cbn [step].
  - rewrite (startup_event_initialised p c E). reflexivity.
  - reflexivity.
  - rewrite POST_chat_process, (startup_event_initialised p c E).
    reflexivity.
Qed.

Lemma run_initialised (ops : list operation) :
  forall p c, bedrock_client p = Some c -> run ops p = p.
Proof.
  induction ops as [|o ops IH]; intros p c E; [reflexivity|].
  unfold run in *. simpl. rewrite (step_initialised p c o E).
  exact (IH p c E).
Qed.

(** What an attempt to create the client leaves: the process with the new
    client held and logged, or the process as it was. *)
Lemma create_client_process (p : process) :
  let region := environ_get (environ p) "AWS_REGION" "us-east-1" in
  let c := {| service_name := "bedrock-runtime"; region_name := region |} in
  snd (create_client p) =
    match boto3_client_raises "bedrock-runtime" region with
    | Some _ => p
    | None =>
        {| environ := environ p;
           MODEL_ID := MODEL_ID p;
           bedrock_client := Some c;
           boto3_clients := c :: boto3_clients p |}
    end.
Proof.
  unfold create_client. destruct (boto3_client_raises _ _); reflexivity.
Qed.

Lemma step_uninitialised (p : process) (o : operation) :
  bedrock_client p = None ->
  step p o = if uses_client o then snd (create_client p) else p.
Proof.
  intros E. destruct o; cbn [step uses_client].
  - unfold startup_event. rewrite E. reflexivity.
  - reflexivity.
  - rewrite POST_chat_process. unfold startup_event. rewrite E. reflexivity.
Qed.

Lemma run_uninitialised (ops : list operation) :
  forall p,
    bedrock_client p = None ->
    run ops p = if existsb uses_client ops then snd (create_client p) else p.
Proof.
  induction ops as [|o ops IH]; intros p E; [reflexivity|].
  change (run (o :: ops) p) with (run ops (step p o)).
  rewrite (step_uninitialised p o E). simpl.
  destruct (uses_client o); simpl; [|exact (IH p E)].
  pose proof (create_client_process p) as Hc. cbv zeta in Hc.
  destruct (boto3_client_raises _ _) eqn:Eb.
  - rewrite Hc, (IH p E), Hc. destruct (existsb uses_client ops); reflexivity.
  - eapply run_initialised. rewrite Hc. reflexivity.
Qed.

Lemma run_app (ops1 ops2 : list operation) (p : process) :
  run (ops1 ++ ops2) p = run ops2 (run ops1 p).
Proof. unfold run. apply fold_left_app. Qed.


Lemma GET_health_response (p : process) :
  GET_health p =
    (Response 200
       (VDict [("status", VStr "ok");
               ("model",
                 match bedrock_client p with
                 | Some _ => VStr (MODEL_ID p)
                 | None => VNone
                 end)]),
     p).
Proof.
  unfold GET_health, health. destruct (bedrock_client p); reflexivity.
Qed.

(** ** Health *)




(** C8: over every sequence of startup, health and chat operations of a
    process, at most one client is ever created; it is created by the
    first startup or chat, unless [boto3.client] refuses the region, in
    which case none ever is; it is the handle the process holds, and no
    later operation replaces or changes it. *)
Theorem client_created_once (env : list (string * string))
  (ops later : list operation) :
  let p := run ops (import_module env) in
  (List.length (boto3_clients p) <= 1)%nat /\
  boto3_clients p =
    match bedrock_client p with Some c => [c] | None => [] end /\
  (bedrock_client p = None <->
   existsb uses_client ops = false \/
   boto3_client_raises "bedrock-runtime"
     (environ_get env "AWS_REGION" "us-east-1") <> None) /\
  (forall c, bedrock_client p = Some c ->
             run later p = p /\
             bedrock_client (run (ops ++ later) (import_module env)) = Some c /\
             boto3_clients (run (ops ++ later) (import_module env)) = [c]).
Proof.
  intros p.
  assert (Hp : p = if existsb uses_client ops
                   then snd (create_client (import_module env))
                   else import_module env).
  { apply run_uninitialised. reflexivity. }
  rewrite create_client_process in Hp. cbv zeta in Hp.
  cbn [environ import_module MODEL_ID boto3_clients] in Hp.
  assert (Hlater : forall c,
             bedrock_client p = Some c ->
             run later p = p /\
             bedrock_client (run (ops ++ later) (import_module env))
               = Some c /\
             boto3_clients (run (ops ++ later) (import_module env))
               = boto3_clients p).
  { intros c Hc. rewrite run_app. fold p.
    rewrite (run_initialised later p c Hc). repeat split. exact Hc. }
  clearbody p.
  destruct (existsb uses_client ops) eqn:Eu;
    destruct (boto3_client_raises "bedrock-runtime"
                (environ_get env "AWS_REGION" "us-east-1")) as [e|] eqn:Eb;
    subst p; cbn [boto3_clients bedrock_client List.length import_module] in *.
  - split; [lia|]. split; [reflexivity|]. split.
    + split; [intros _; right; discriminate|reflexivity].
    + intros c Hc. discriminate Hc.
  - split; [lia|]. split; [reflexivity|]. split.
    + split; [discriminate|].
      intros [H|H]; [discriminate H|now elim H].
    + intros c Hc. destruct (Hlater c Hc) as (H1 & H2 & H3).
      repeat split; try assumption.
      rewrite H3. injection Hc as <-. reflexivity.
  - split; [lia|]. split; [reflexivity|]. split.
    + split; [intros _; left; reflexivity|reflexivity].
    + intros c Hc. discriminate Hc.
  - split; [lia|]. split; [reflexivity|]. split.
    + split; [intros _; left; reflexivity|reflexivity].
    + intros c Hc. discriminate Hc.
Qed.

(** ** Determinism *)

(** C10: two runs of the chat handler on the same request, under the same
    model identifier and with the provider answering alike, give the same
    response, whatever else differs between the two process states.  That
    the provider answers in both runs presupposes that each has, or
    obtains, its client. *)
Theorem chat_deterministic (invoke_model1 invoke_model2 : bedrock_runtime)
  (req : ChatRequest) (p1 p2 : process) (c1 c2 : client) :
  MODEL_ID p1 = MODEL_ID p2 ->
  bedrock_client (snd (startup_event p1)) = Some c1 ->
  bedrock_client (snd (startup_event p2)) = Some c2 ->
  (forall payload,
      payload_for (conversationHistory req ++ [user_message (message req)])
        = Return payload ->
      invoke_model1 c1 (MODEL_ID p1) payload "application/json" =
        invoke_model2 c2 (MODEL_ID p2) payload "application/json") ->
  fst (POST_chat invoke_model1 req p1) = fst (POST_chat invoke_model2 req p2).
Proof.
  intros Hm Hc1 Hc2 Hi. rewrite !POST_chat_response. f_equal.
  destruct (payload_for
              (conversationHistory req ++ [user_message (message req)]))
    as [payload|e] eqn:Hp.
  - rewrite (chat_invoked _ _ _ _ _ Hc1 Hp), (chat_invoked _ _ _ _ _ Hc2 Hp).
    rewrite (Hi payload eq_refl). reflexivity.
  - rewrite (chat_payload_Raise _ _ _ _ _ Hc1 Hp),
      (chat_payload_Raise _ _ _ _ _ Hc2 Hp). reflexivity.
Qed.


(** ** The region of a Lambda ARN *)

Lemma append_empty_r (s : string) : (s ++ "")%string = s.
Proof. induction s as [|a s IH]; simpl; [reflexivity|now rewrite IH]. Qed.

Lemma append_assoc (s1 s2 s3 : string) :
  ((s1 ++ s2) ++ s3)%string = (s1 ++ (s2 ++ s3))%string.
Proof. induction s1 as [|a s1 IH]; simpl; [reflexivity|now rewrite IH]. Qed.

Lemma append_eq_empty (s1 s2 : string) :
  (s1 ++ s2)%string = "" -> s1 = "" /\ s2 = "".
Proof. destruct s1; simpl; [intros ->; split; reflexivity|discriminate]. Qed.

Lemma span_not_append (c : ascii) (s : string) :
  (fst (span_not c s) ++ snd (span_not c s))%string = s.
Proof.
  induction s as [|a s IH]; simpl; [reflexivity|].
  destruct (a =? c)%char; [reflexivity|].
  destruct (span_not c s) as [r rest]. simpl in *. now rewrite IH.
Qed.

Lemma span_not_occurs (c : ascii) (s : string) :
  occurs c (fst (span_not c s)) = false.
Proof.
  induction s as [|a s IH]; simpl; [reflexivity|].
  destruct (a =? c)%char eqn:E; [reflexivity|].
  destruct (span_not c s) as [r rest]. simpl in *. now rewrite E.
Qed.

(** A string is split at the first occurrence of [c]. *)
Lemma span_not_first (c : ascii) (r rest : string) :
  occurs c r = false ->
  span_not c (r ++ String c rest) = (r, String c rest).
Proof.
  induction r as [|a r IH]; simpl.
  - intros _. now rewrite Ascii.eqb_refl.
  - intros H. apply orb_false_iff in H. destruct H as [Ha Hr].
    rewrite Ha, (IH Hr). reflexivity.
Qed.

Lemma span_not_colon (c : ascii) (s r : string) (a : ascii) (rest : string) :
  span_not c s = (r, String a rest) -> a = c.
Proof.
  revert r. induction s as [|b s IH]; intros r; simpl; [discriminate|].
  destruct (b =? c)%char eqn:E.
  - intros H. injection H as _ -> _. now apply Ascii.eqb_eq.
  - destruct (span_not c s) as [r' rest'].
    intros H. injection H as _ ->. exact (IH r' eq_refl).
Qed.

(** The greedy group never needs to give a character back: followed by
    the literal [c], [([^c]+)] takes everything up to the first [c]. *)
Lemma plus_not_span (c : ascii) (s : string) :
  forall taken,
    plus_not c (fun t rest => match_here [Char c] rest (Some t)) taken s =
      match snd (span_not c s) with
      | EmptyString => None
      | String _ _ =>
          if ((taken ++ fst (span_not c s)) =? "")%string then None
          else Some (Some (taken ++ fst (span_not c s))%string)
      end.
Proof.
  induction s as [|a s IH]; intros taken; simpl.
  - destruct (taken =? "")%string; reflexivity.
  - destruct (a =? c)%char eqn:E; simpl.
    + rewrite append_empty_r. reflexivity.
    + rewrite ?E, IH.
      destruct (span_not c s) as [r rest]. simpl.
      rewrite append_assoc. simpl.
      destruct rest; [|destruct (_ =? "")%string]; try reflexivity.
      all: destruct (taken =? "")%string; reflexivity.
Qed.

Lemma match_here_literal (l : string) (pattern : list item) (s : string)
  (group : option string) :
  match_here (literal l ++ pattern) (l ++ s) group =
    match_here pattern s group.
Proof.
  induction l as [|a l IH]; simpl; [reflexivity|].
  now rewrite Ascii.eqb_refl.
Qed.

Lemma match_here_literal_inv (l : string) (pattern : list item) :
  forall s group m,
    match_here (literal l ++ pattern) s group = Some m ->
    exists s', s = (l ++ s')%string /\ match_here pattern s' group = Some m.
Proof.
  induction l as [|a l IH]; intros s group m; simpl.
  - intros H. exists s. split; [reflexivity|exact H].
  - destruct s as [|b s]; [discriminate|].
    destruct (b =? a)%char eqn:E; [|discriminate].
    apply Ascii.eqb_eq in E. subst b. intros H.
    destruct (IH _ _ _ H) as (s' & -> & H'). exists s'. split; [reflexivity|exact H'].
Qed.

(** The pattern matches at the start of a string exactly when the string
    begins [arn:aws:lambda:], a non-empty region without colon, and a
    colon; group 1 is then the region. *)
Lemma match_here_lambda_arn (s : string) (m : option string) :
  match_here lambda_arn s None = Some m <->
  exists region rest,
    s = ("arn:aws:lambda:" ++ region ++ ":" ++ rest)%string /\
    region <> "" /\ occurs ":" region = false /\ m = Some region.
Proof.
  unfold lambda_arn. split.
  - intros H. apply match_here_literal_inv in H. destruct H as (s' & -> & H).
    cbn [app literal match_here] in H.
    change (fun taken rest =>
              match rest with
              | "" => None
              | String a s'0 =>
                  if (a =? ":")%char then Some (Some taken) else None
              end)
      with (fun taken rest => match_here [Char ":"] rest (Some taken)) in H.
    rewrite plus_not_span in H. cbn [append] in H.
    pose proof (span_not_append ":" s') as Happ.
    pose proof (span_not_occurs ":" s') as Hocc.
    destruct (span_not ":" s') as [r rest] eqn:Es. cbn [fst snd] in *.
    destruct rest as [|a rest]; [discriminate H|].
    pose proof (span_not_colon _ _ _ _ _ Es) as ->.
    destruct (r =? "")%string eqn:Er; [discriminate H|].
    injection H as <-. exists r, rest.
    repeat split; try assumption.
    + now rewrite <- Happ.
    + now apply String.eqb_neq.
  - intros (region & rest & -> & Hne & Hocc & ->).
    rewrite match_here_literal. cbn [app literal match_here].
    change (fun taken rest0 =>
              match rest0 with
              | "" => None
              | String a s' =>
                  if (a =? ":")%char then Some (Some taken) else None
              end)
      with (fun taken rest0 => match_here [Char ":"] rest0 (Some taken)).
    rewrite plus_not_span. cbn [append].
    change (":" ++ rest)%string with (String ":" rest).
    rewrite (span_not_first ":" region rest Hocc). cbn [fst snd].
    apply String.eqb_neq in Hne. rewrite Hne. reflexivity.
Qed.

Lemma re_search_here (pattern : list item) (s : string) (m : option string) :
  match_here pattern s None = Some m -> re_search pattern s = Some m.
Proof.
  intros H. destruct s; simpl; rewrite H; reflexivity.
Qed.

(** A match found by [re_search] starts at the leftmost position where
    the pattern matches. *)
Lemma re_search_Some (pattern : list item) (s : string) :
  forall m,
    re_search pattern s = Some m ->
    exists pre suf,
      s = (pre ++ suf)%string /\
      match_here pattern suf None = Some m /\
      forall pre' suf',
        s = (pre' ++ suf')%string ->
        (String.length pre' < String.length pre)%nat ->
        match_here pattern suf' None = None.
Proof.
  assert (Hstep : forall t, re_search pattern t =
                    match match_here pattern t None with
                    | Some m => Some m
                    | None => match t with
                              | EmptyString => None
                              | String _ t' => re_search pattern t'
                              end
                    end) by (intros [|? ?]; reflexivity).
  induction s as [|a s IH]; intros m; rewrite Hstep.
  - destruct (match_here pattern "" None) as [m'|] eqn:E; [|discriminate].
    intros H. injection H as ->. exists "", "". repeat split; [exact E|].
    intros pre' suf' _ Hlt. simpl in Hlt. lia.
  - destruct (match_here pattern (String a s) None) as [m'|] eqn:E.
    + intros H. injection H as ->. exists "", (String a s).
      repeat split; [exact E|]. intros pre' suf' _ Hlt. simpl in Hlt. lia.
    + intros H. destruct (IH m H) as (pre & suf & -> & Hm & Hleft).
      exists (String a pre), suf. repeat split; [exact Hm|].
      intros pre' suf' Heq Hlt. destruct pre' as [|b pre'].
      * simpl in Heq. subst suf'. exact E.
      * simpl in Heq, Hlt. injection Heq as _ Heq.
        apply (Hleft pre' suf' Heq). lia.
Qed.

Lemma re_search_None (pattern : list item) (s : string) :
  re_search pattern s = None ->
  forall pre suf, s = (pre ++ suf)%string ->
                  match_here pattern suf None = None.
Proof.
  induction s as [|a s IH]; simpl.
  - destruct (match_here pattern "" None) eqn:E; [discriminate|].
    intros _ pre suf H. symmetry in H. apply append_eq_empty in H.
    destruct H as [_ ->]. exact E.
  - destruct (match_here pattern (String a s) None) eqn:E; [discriminate|].
    intros H pre suf Heq. destruct pre as [|b pre].
    + simpl in Heq. subst suf. exact E.
    + simpl in Heq. injection Heq as _ Heq. exact (IH H pre suf Heq).
Qed.

(** X1: on a Lambda ARN, [arn:aws:lambda:] followed by a non-empty region
    without colon and a colon, [extract_region_from_arn] returns the
    region, whatever follows and whatever the environment holds. *)
Theorem extract_region_from_arn_region (env : list (string * string))
  (region rest : string) :
  region <> "" ->
  occurs ":" region = false ->
  extract_region_from_arn env
    ("arn:aws:lambda:" ++ region ++ ":" ++ rest)%string = VStr region.
Proof.
  intros Hne Hocc. unfold extract_region_from_arn.
  rewrite (re_search_here lambda_arn _ (Some region)); [reflexivity|].
  apply match_here_lambda_arn. exists region, rest. repeat split; assumption.
Qed.


(** X2: [extract_region_from_arn] always returns a string.  It is the
    region of the leftmost place in the argument where [arn:aws:lambda:] is
    followed by a non-empty run of characters other than the colon and then
    a colon; when there is no such place it is the value of AWS_REGION, or
    ["us-east-1"] when that is unset. *)
Theorem extract_region_from_arn_leftmost (env : list (string * string))
  (arn : string) :
  (exists pre region rest,
      arn = (pre ++ "arn:aws:lambda:" ++ region ++ ":" ++ rest)%string /\
      region <> "" /\ occurs ":" region = false /\
      extract_region_from_arn env arn = VStr region /\
      forall pre' region' rest',
        arn = (pre' ++ "arn:aws:lambda:" ++ region' ++ ":" ++ rest')%string ->
        region' <> "" -> occurs ":" region' = false ->
        (String.length pre <= String.length pre')%nat) \/
  ((forall pre region rest,
       arn = (pre ++ "arn:aws:lambda:" ++ region ++ ":" ++ rest)%string ->
       region <> "" -> occurs ":" region = false -> False) /\
   extract_region_from_arn env arn =
     VStr (environ_get env "AWS_REGION" "us-east-1")).
Proof.
  unfold extract_region_from_arn.
  destruct (re_search lambda_arn arn) as [m|] eqn:E.
  - left. apply re_search_Some in E.
    destruct E as (pre & suf & -> & Hm & Hleft).
    apply match_here_lambda_arn in Hm.
    destruct Hm as (region & rest & -> & Hne & Hocc & ->).
    exists pre, region, rest. repeat split; try assumption.
    intros pre' region' rest' Heq Hne' Hocc'.
    destruct (Nat.le_gt_cases (String.length pre) (String.length pre'))
      as [Hle|Hlt]; [exact Hle|exfalso].
    specialize (Hleft pre' _ Heq Hlt).
    assert (Hm : match_here lambda_arn
                   ("arn:aws:lambda:" ++ region' ++ ":" ++ rest')%string None
                 = Some (Some region')).
    { apply match_here_lambda_arn. exists region', rest'.
      repeat split; assumption. }
    congruence.
  - right. split; [|reflexivity].
    intros pre region rest Heq Hne Hocc.
    pose proof (re_search_None _ _ E pre _ Heq) as Hnone.
    assert (Hm : match_here lambda_arn
                   ("arn:aws:lambda:" ++ region ++ ":" ++ rest)%string None
                 = Some (Some region)).
    { apply match_here_lambda_arn. exists region, rest.
      repeat split; assumption. }
    congruence.
Qed.

(** ** Starting the server *)



(** ** Malformed history entries *)

Lemma bedrock_loop_first_missing (messages : list dict) :
  forall acc,
    match first_missing messages with
    | Some key => bedrock_loop messages acc = Raise (KeyError key)
    | None => exists out, bedrock_loop messages acc = Return out
    end.
Proof.
  induction messages as [|msg rest IH]; intros acc; simpl.
  - eexists. reflexivity.
  - unfold getitem. destruct (lookup "role" msg); [|reflexivity].
    destruct (lookup "content" msg); [|reflexivity]. simpl. apply IH.
Qed.

Lemma first_missing_user_message (history : list dict) (m : string) :
  first_missing (history ++ [user_message m]) = first_missing history.
Proof.
  induction history as [|msg rest IH]; simpl; [reflexivity|].
  destruct (lookup "role" msg); [|reflexivity].
  destruct (lookup "content" msg); [|reflexivity]. exact IH.
Qed.

Lemma payload_for_first_missing (req : ChatRequest) :
  match first_missing (conversationHistory req) with
  | Some key =>
      payload_for (conversationHistory req ++ [user_message (message req)])
        = Raise (KeyError key)
  | None =>
      exists payload,
        payload_for (conversationHistory req ++ [user_message (message req)])
          = Return payload
  end.
Proof.
  pose proof (bedrock_loop_first_missing
                (conversationHistory req ++ [user_message (message req)]) [])
    as H.
  rewrite first_missing_user_message in H. unfold payload_for.
  destruct (first_missing (conversationHistory req)).
  - rewrite H. reflexivity.
  - destruct H as (out & ->). eexists. reflexivity.
Qed.

(** Once the client is held and the payload built, [chat] cannot end with
    a [KeyError] or a [TypeError]. *)
Lemma chat_payload_built (invoke_model : bedrock_runtime) (req : ChatRequest)
  (p : process) (c : client) (payload : value) :
  bedrock_client (snd (startup_event p)) = Some c ->
  payload_for (conversationHistory req ++ [user_message (message req)])
    = Return payload ->
  (exists t, fst (chat invoke_model req p) = Return (success req t)) \/
  (exists detail,
      fst (chat invoke_model req p) = Raise (HTTPException 502 detail)) \/
  (exists msg, fst (chat invoke_model req p) = Raise (AttributeError msg)) \/
  (exists e, fst (chat invoke_model req p) = Raise (LibraryError e)).
Proof.
  intros Hc Hp.
  destruct (invoke_model c (MODEL_ID p) payload "application/json")
    as [e|e|e|body] eqn:Hi.
  4:{ destruct (chat_Body _ _ _ _ _ _ Hc Hp Hi) as [(t & _ & H)|[H|(m & H)]].
      - left. exists t. rewrite H. unfold success. now rewrite <- app_assoc.
      - right; left. eexists. exact H.
      - right; right; left. eexists. exact H. }
  all: rewrite (chat_raised _ _ _ _ _ e Hc Hp) by (rewrite Hi; reflexivity).
  all: destruct (isinstance_ClientError e);
    [right; left; eexists; reflexivity
    |right; right; right; eexists; reflexivity].
Qed.

(** X5: POST /chat ends with an unhandled [KeyError] exactly when the
    client is held or can be created and an entry of the request's history
    lacks [role] or [content]; the key reported is the first one missing in
    the first such entry, and this holds whatever the provider would have
    answered. *)
Theorem chat_KeyError_iff (invoke_model : bedrock_runtime)
  (req : ChatRequest) (p : process) (key : string) :
  fst (POST_chat invoke_model req p) = Unhandled (KeyError key) <->
  (exists c, bedrock_client (snd (startup_event p)) = Some c) /\
  first_missing (conversationHistory req) = Some key.
Proof.
  rewrite POST_chat_response.
  destruct (startup_event_client p) as [(c & Hc & _)|(e & _ & _ & Hs)].
  2:{ rewrite (chat_creation_Raise _ _ _ (LibraryError (raised_by_boto3 e)))
        by (rewrite Hs; reflexivity).
      cbn [respond]. split; [discriminate|].
      intros ((c & Hc) & _). rewrite Hs in Hc. cbn [snd] in Hc.
      unfold startup_event in Hs. destruct (bedrock_client p); [|discriminate Hc].
      discriminate Hs. }
  pose proof (payload_for_first_missing req) as Hp.
  destruct (first_missing (conversationHistory req)) as [k|].
  - rewrite (chat_payload_Raise _ _ _ _ _ Hc Hp). cbn [respond]. split.
    + intros H. injection H as ->. split; [exists c; exact Hc|reflexivity].
    + intros (_ & H). injection H as ->. reflexivity.
  - destruct Hp as (payload & Hp). split; [|intros (_ & H); discriminate H].
    destruct (chat_payload_built invoke_model req p c payload Hc Hp)
      as [(t & E)|[(d & E)|[(m & E)|(e & E)]]]; rewrite E; cbn [respond];
      try discriminate.
    destruct (renderable _); discriminate.
Qed.

(** ** What a decoded body leads to *)

Lemma exposes_text_dict_shaped (body t : value) :
  exposes_text body t -> dict_shaped body = true.
Proof.
  intros (b & o & m & d & rest & -> & Ho & Hm & Hc & _).
  unfold dict_shaped. rewrite Ho, Hm, Hc. reflexivity.
Qed.

Lemma chat_exposes_text (invoke_model : bedrock_runtime) (req : ChatRequest)
  (p : process) (c : client) (payload body t : value) :
  bedrock_client (snd (startup_event p)) = Some c ->
  payload_for (conversationHistory req ++ [user_message (message req)])
    = Return payload ->
  invoke_model c (MODEL_ID p) payload "application/json" = Body body ->
  exposes_text body t ->
  fst (chat invoke_model req p) = Return (success req t).
Proof.
  intros Hc Hp Hi (b & o & m & d & rest & -> & Ho & Hm & Hcont & Ht & Htr).
  rewrite (chat_invoked _ _ _ _ _ Hc Hp), Hi.
  cbn [try_invoke bind get]. rewrite Ho. cbn [bind get]. rewrite Hm.
  cbn [bind get]. rewrite Hcont.
  cbn [bind invalid truthy isinstance_list negb first get]. rewrite Ht.
  cbn [bind]. rewrite Htr.
  cbn [negb subscript]. unfold getitem. rewrite Ht.
  cbn [bind]. unfold success. now rewrite <- app_assoc.
Qed.

Lemma chat_not_dict_shaped (invoke_model : bedrock_runtime)
  (req : ChatRequest) (p : process) (c : client) (payload body : value) :
  bedrock_client (snd (startup_event p)) = Some c ->
  payload_for (conversationHistory req ++ [user_message (message req)])
    = Return payload ->
  invoke_model c (MODEL_ID p) payload "application/json" = Body body ->
  dict_shaped body = false ->
  exists msg, fst (chat invoke_model req p) = Raise (AttributeError msg).
Proof.
  intros Hc Hp Hi Hs. rewrite (chat_invoked _ _ _ _ _ Hc Hp), Hi.
  cbn [try_invoke bind]. unfold dict_shaped in Hs.
  destruct body as [| | | | | |b]; cbn [get bind];
    try (eexists; reflexivity).
  destruct (lookup "output" b) as [output|]; [|discriminate Hs].
  destruct output as [| | | | | |o]; cbn [get bind];
    try (eexists; reflexivity).
  destruct (lookup "message" o) as [m|]; [|discriminate Hs].
  destruct m as [| | | | | |m]; cbn [get bind];
    try (eexists; reflexivity).
  destruct (lookup "content" m) as [out|]; [|discriminate Hs].
  destruct out as [| | | | |xs|]; try discriminate Hs.
  destruct xs as [|x rest]; [discriminate Hs|].
  cbn [invalid truthy negb isinstance_list first].
  destruct x; try discriminate Hs; cbn [get bind]; eexists; reflexivity.
Qed.


(** X7: a decoded body that exposes no truthy text is answered with the
    502 "Invalid response from model" exactly when the body, [output],
    [message] and the first content element, where present, are dicts;
    otherwise, and only then, the handler ends with an unhandled
    [AttributeError]. *)
Theorem chat_invalid_iff (invoke_model : bedrock_runtime)
  (req : ChatRequest) (p : process) (c : client) (payload body : value) :
  bedrock_client (snd (startup_event p)) = Some c ->
  payload_for (conversationHistory req ++ [user_message (message req)])
    = Return payload ->
  invoke_model c (MODEL_ID p) payload "application/json" = Body body ->
  (fst (POST_chat invoke_model req p) =
     Response 502 (VDict [("detail", VStr "Invalid response from model")]) <->
   dict_shaped body = true /\ forall t, ~ exposes_text body t) /\
  ((exists msg,
       fst (POST_chat invoke_model req p) = Unhandled (AttributeError msg)) <->
   dict_shaped body = false).
Proof.
  intros Hc Hp Hi. rewrite POST_chat_response. split; split.
  - intros H. split.
    + destruct (dict_shaped body) eqn:Hs; [reflexivity|exfalso].
      destruct (chat_not_dict_shaped _ _ _ _ _ _ Hc Hp Hi Hs) as (msg & E).
      rewrite E in H. discriminate H.
    + intros t Ht.
      rewrite (chat_exposes_text _ _ _ _ _ _ _ Hc Hp Hi Ht) in H.
      cbn [respond] in H. destruct (renderable _); discriminate H.
  - intros (Hs & Hno).
    destruct (chat_Body _ _ _ _ _ _ Hc Hp Hi) as [(t & Ht & _)|[H|(msg & H)]].
    + exfalso. exact (Hno t Ht).
    + rewrite H. reflexivity.
    + exfalso. exact (chat_dict_shaped _ _ _ _ _ _ msg Hc Hp Hi Hs H).
  - intros (msg & H).
    destruct (dict_shaped body) eqn:Hs; [exfalso|reflexivity].
    apply (chat_dict_shaped _ _ _ _ _ _ msg Hc Hp Hi Hs).
    destruct (fst (chat invoke_model req p)) as [v|e].
    + cbn [respond] in H. destruct (renderable v); discriminate H.
    + destruct e; try discriminate H. injection H as ->. reflexivity.
  - intros Hs.
    destruct (chat_not_dict_shaped _ _ _ _ _ _ Hc Hp Hi Hs) as (msg & E).
    exists msg. rewrite E. reflexivity.
Qed.


(** ** Every answer of POST /chat *)


(** ** The message the model is asked *)

(** X9: in the payload sent to the provider the new message comes last,
    with role [user] and its text as the single content element, after one
    entry for each entry of the request's history. *)
Theorem payload_for_user_last (history : list dict) (m : string)
  (payload : value) :
  payload_for (history ++ [user_message m]) = Return payload ->
  exists earlier,
    List.length earlier = List.length history /\
    payload =
      VDict [("messages",
               VList (earlier ++
                        [VDict [("role", VStr "user");
                                ("content",
                                  VList [VDict [("text", VStr m)]])]]));
             ("inferenceConfig",
               VDict [("maxTokens", VInt 512);
                      ("stopSequences", VList []);
                      ("temperature", VFloat 0.7%float);
                      ("topP", VFloat 0.9%float)])].
Proof.
  unfold payload_for.
  destruct (bedrock_loop (history ++ [user_message m]) []) as [bms|e] eqn:E;
    cbn [bind]; [|discriminate].
  intros H. injection H as <-.
  apply bedrock_loop_Return in E. destruct E as (bs & HF & ->).
  apply Forall2_app_inv_l in HF.
  destruct HF as (earlier & last & Hearlier & Hlast & ->).
  inversion Hlast as [|? b ? rest Hw Hnil]; subst.
  inversion Hnil; subst.
  destruct Hw as (role & content & Hr & Hc & ->).
  cbn in Hr, Hc. injection Hr as <-. injection Hc as <-.
  exists earlier. split; [|reflexivity].
  symmetry. exact (Forall2_length Hearlier).
Qed.


(** ** Health after a chat *)


(** ** Configuration is read once *)

(** X11: once the client exists the handlers no longer look at the
    environment: with AWS_REGION, MODEL_ID or anything else changed, POST
    /chat and GET /health answer as before and the startup handler still
    does nothing. *)
Theorem handlers_ignore_environ (invoke_model : bedrock_runtime)
  (req : ChatRequest) (p : process) (c : client)
  (env : list (string * string)) :
  bedrock_client p = Some c ->
  fst (POST_chat invoke_model req (with_environ env p)) =
    fst (POST_chat invoke_model req p) /\
  fst (GET_health (with_environ env p)) = fst (GET_health p) /\
  startup_event (with_environ env p) = (Return tt, with_environ env p).
Proof.
  intros Hc.
  assert (Hc' : bedrock_client (with_environ env p) = Some c) by exact Hc.
  assert (Hs : bedrock_client (snd (startup_event p)) = Some c).
  { rewrite (startup_event_initialised p c Hc). exact Hc. }
  assert (Hs' : bedrock_client (snd (startup_event (with_environ env p)))
                = Some c).
  { rewrite (startup_event_initialised _ c Hc'). exact Hc'. }
  split; [|split].
  - rewrite !POST_chat_response. f_equal.
    destruct (payload_for
                (conversationHistory req ++ [user_message (message req)]))
      as [payload|e] eqn:Hp.
    + rewrite (chat_invoked _ _ _ _ _ Hs Hp), (chat_invoked _ _ _ _ _ Hs' Hp).
      reflexivity.
    + rewrite (chat_payload_Raise _ _ _ _ _ Hs Hp),
        (chat_payload_Raise _ _ _ _ _ Hs' Hp). reflexivity.
  - rewrite !GET_health_response. cbn [fst bedrock_client with_environ MODEL_ID].
    reflexivity.
  - exact (startup_event_initialised _ c Hc').
Qed.

End Process.

(** * Examples

    The scenarios of the specification and the edge cases, under a
    [boto3.client] that validates the region. *)


Lemma chat_history_frame_a_b_c :
  exists kvs history,
    a_b_c_d = VDict kvs /\
    lookup "conversationHistory" kvs = Some (VList history) /\
    List.length history = 4%nat /\
    firstn 2 history = map VDict (conversationHistory a_b_c).
Proof.
  apply (chat_history_frame validates (fun _ _ _ _ => Body reply_d) a_b_c
           (import_module [])).
  reflexivity.
Defined.

Lemma chat_ClientError_502_throttled :
  exists detail,
    fst (POST_chat validates (fun _ _ _ _ => InvokeRaises throttled) hello
           (import_module [])) =
      Response 502 (VDict [("detail", VStr detail)]) /\
    detail = ("Bedrock invocation failed: " ++ str_exn throttled)%string /\
    detail <> "".
Proof.
  eapply (chat_ClientError_502 validates
            (fun _ _ _ _ => InvokeRaises throttled) hello
            (import_module [])); reflexivity.
Defined.

(** C4 as stated fails on a transport-level error of the provider call,
    which is not mapped: an unreachable endpoint leaves the handler as the
    botocore exception, and no 502 response with a [detail] is produced. *)
Lemma chat_unreachable_unhandled :
  transport_or_client_level unreachable = true /\
  fst (POST_chat validates (fun _ _ _ _ => InvokeRaises unreachable) hello
         (import_module [])) = Unhandled (LibraryError unreachable) /\
  forall detail,
    fst (POST_chat validates (fun _ _ _ _ => InvokeRaises unreachable) hello
           (import_module [])) <>
      Response 502 (VDict [("detail", VStr detail)]).
Proof.
  split; [reflexivity|]. split; [reflexivity|].
  intros detail. discriminate.
Qed.

Lemma chat_invocation_failed_not_json :
  fst (chat validates (fun _ _ _ _ => LoadsRaises not_json) hello
         (import_module []))
    = Raise (LibraryError not_json) /\
  fst (POST_chat validates (fun _ _ _ _ => LoadsRaises not_json) hello
         (import_module [])) = Unhandled (LibraryError not_json).
Proof.
  eapply (proj2 (chat_invocation_failed_iff validates
                   (fun _ _ _ _ => LoadsRaises not_json) hello
                   (import_module []))); reflexivity.
Defined.

(** C5 fails on bodies whose path runs through a value that is not a
    dict: for [{"output": null}], and for a content list whose first
    element is a bare string, the path (respectively the text) is missing,
    yet the probing raises [AttributeError] and no 502 is produced. *)
Theorem chat_invalid_response_unhandled :
  deviates null_output = true /\
  fst (POST_chat validates (fun _ _ _ _ => Body null_output) hello
         (import_module []))
    = Unhandled
        (AttributeError "'NoneType' object has no attribute 'get'") /\
  deviates bare_text = true /\
  fst (POST_chat validates (fun _ _ _ _ => Body bare_text) hello
         (import_module []))
    = Unhandled (AttributeError "'str' object has no attribute 'get'").
Proof. repeat split. Qed.


Lemma chat_deterministic_regions :
  fst (POST_chat validates says_hi a_b_c started) =
    fst (POST_chat validates says_hi a_b_c fresh_eu).
Proof.
  eapply (chat_deterministic validates says_hi says_hi a_b_c started
            fresh_eu).
  - reflexivity.
  - reflexivity.
  - reflexivity.
  - intros payload _. reflexivity.
Defined.

Lemma extract_region_from_arn_region_function :
  extract_region_from_arn [("AWS_REGION", "us-east-1")]
    "arn:aws:lambda:ap-northeast-1:123456789012:function:chat"
    = VStr "ap-northeast-1".
Proof.
  apply (extract_region_from_arn_region [("AWS_REGION", "us-east-1")]
           "ap-northeast-1" "123456789012:function:chat").
  - discriminate.
  - reflexivity.
Defined.



Lemma chat_invalid_iff_empty_object :
  (fst (POST_chat validates (fun _ _ _ _ => Body (VDict [])) hello
          (import_module [])) =
     Response 502 (VDict [("detail", VStr "Invalid response from model")]) <->
   dict_shaped (VDict []) = true /\
   forall t, ~ exposes_text (VDict []) t) /\
  ((exists msg,
       fst (POST_chat validates (fun _ _ _ _ => Body (VDict [])) hello
              (import_module [])) = Unhandled (AttributeError msg)) <->
   dict_shaped (VDict []) = false).
Proof.
  eapply (chat_invalid_iff validates (fun _ _ _ _ => Body (VDict [])) hello
            (import_module [])); reflexivity.
Defined.

Lemma payload_for_user_last_a_b_c :
  exists earlier,
    List.length earlier = 2%nat /\
    VDict [("messages",
             VList [VDict [("role", VStr "user");
                           ("content", VList [VDict [("text", VStr "a")]])];
                    VDict [("role", VStr "assistant");
                           ("content", VList [VDict [("text", VStr "b")]])];
                    VDict [("role", VStr "user");
                           ("content", VList [VDict [("text", VStr "c")]])]]);
           ("inferenceConfig",
             VDict [("maxTokens", VInt 512);
                    ("stopSequences", VList []);
                    ("temperature", VFloat 0.7%float);
                    ("topP", VFloat 0.9%float)])] =
      VDict [("messages",
               VList (earlier ++
                        [VDict [("role", VStr "user");
                                ("content",
                                  VList [VDict [("text", VStr "c")]])]]));
             ("inferenceConfig",
               VDict [("maxTokens", VInt 512);
                      ("stopSequences", VList []);
                      ("temperature", VFloat 0.7%float);
                      ("topP", VFloat 0.9%float)])].
Proof.
  apply (payload_for_user_last (conversationHistory a_b_c) "c").
  reflexivity.
Defined.

Lemma handlers_ignore_environ_started :
  fst (POST_chat validates says_hi hello
         (with_environ [("AWS_REGION", "bad region!"); ("MODEL_ID", "other")]
            started)) =
    fst (POST_chat validates says_hi hello started) /\
  fst (GET_health
         (with_environ [("AWS_REGION", "bad region!"); ("MODEL_ID", "other")]
            started)) = fst (GET_health started) /\
  startup_event validates
    (with_environ [("AWS_REGION", "bad region!"); ("MODEL_ID", "other")]
       started) =
    (Return tt,
     with_environ [("AWS_REGION", "bad region!"); ("MODEL_ID", "other")]
       started).
Proof.
  eapply (handlers_ignore_environ validates says_hi hello started).
  reflexivity.
Defined.

(** ** The two failing paths *)

(** A region that [boto3.client] refuses: the chat ends with the
    constructor's exception before the history is looked at, the process
    keeps no client, and health reports null. *)
Lemma chat_bad_region :
  POST_chat validates says_hi
    {| message := "hello"; conversationHistory := [[]] |} fresh_bad =
    (Unhandled
       (LibraryError
          (BotoCoreError "InvalidRegionError"
             "Provided region_name 'bad region!' doesn't match a supported format.")),
     fresh_bad) /\
  fst (GET_health (run validates [Startup; Chat says_hi hello] fresh_bad)) =
    Response 200 (VDict [("status", VStr "ok"); ("model", VNone)]).
Proof. split; reflexivity. Qed.

